(** * Real-estate listing service: request validation and persistence

    A shallow embedding of [src/lambda/index.js], the Express handlers that
    sit between the HTTP gateway and the [RealEstateListings] table.  The
    repository carries two revisions of the file: the one that sanitizes
    with [xss] (module [V1]) and the one that resolves the table name from
    the secret provider and stores the request body as received (module
    [V2]). *)

From Stdlib Require Import Ascii String SpecFloat.
From stdpp Require Import base option list strings gmap fin_maps.

Local Open Scope string_scope.
Set Warnings "-register-all".

(** ** JavaScript values

    What [express.json()] hands to a handler in [req.body], together with
    [undefined], which is what reading a missing property yields.  A number
    is an IEEE-754 double; [spec_float] is the Standard Library's inductive
    description of those. *)

Inductive value : Type :=
  | VUndef
  | VNull
  | VBool (b : bool)
  | VNum (n : spec_float)
  | VStr (s : string)
  | VArr (elems : list value)
  | VObj (props : list (string * value)).

(** A plain object used as a record: own property name to value. *)
Abbreviation object := (gmap string value).

(** [o.k]: property read; a missing property reads as [undefined]. *)
Definition prop (o : object) (k : string) : value := default VUndef (o !! k).

Definition pos_zero : spec_float := S754_zero false.

(** ToBoolean. *)
Definition truthy (v : value) : bool :=
  match v with
  | VUndef | VNull => false
  | VBool b => b
  | VNum (S754_zero _) | VNum S754_nan => false
  | VNum _ => true
  | VStr s => negb (String.eqb s "")
  | VArr _ | VObj _ => true
  end.

(** The [typeof] operator. *)
Definition typeof (v : value) : string :=
  match v with
  | VUndef => "undefined"
  | VNull => "object"
  | VBool _ => "boolean"
  | VNum _ => "number"
  | VStr _ => "string"
  | VArr _ | VObj _ => "object"
  end.

(** SameValueZero, the comparison of [Array.prototype.includes].  Arrays and
    objects compare by identity, and a value taken from a request is never
    identical to a literal of the program. *)
Definition same_value_zero (a b : value) : bool :=
  match a, b with
  | VUndef, VUndef | VNull, VNull => true
  | VBool x, VBool y => Bool.eqb x y
  | VNum S754_nan, VNum S754_nan => true
  | VNum x, VNum y => SFeqb x y
  | VStr x, VStr y => String.eqb x y
  | _, _ => false
  end.

Definition includes (l : list value) (v : value) : bool :=
  existsb (fun x => same_value_zero x v) l.

(** [a < b] with a number on the right, as used on [data.Price] once
    [typeof] has established that it is a number. *)
Definition num_lt (a : value) (b : spec_float) : bool :=
  match a with
  | VNum x => SFltb x b
  | _ => false
  end.

(** [Number.isNaN].  [JSON.parse] never produces NaN, so a parsed request
    body holds none. *)
Definition isNaN (v : value) : bool :=
  match v with
  | VNum S754_nan => true
  | _ => false
  end.

(** ** Input validation helper *)

Definition validateProperty (data : object) : value :=
  if negb (truthy (prop data "PropertyID")) || negb (String.eqb (typeof (prop data "PropertyID")) "string")
  then VStr "Invalid PropertyID"
  else if negb (truthy (prop data "Title")) || negb (String.eqb (typeof (prop data "Title")) "string")
  then VStr "Invalid Title"
  else if negb (truthy (prop data "Description")) || negb (String.eqb (typeof (prop data "Description")) "string")
  then VStr "Invalid Description"
  else if negb (includes [VStr "Rent"; VStr "Sale"] (prop data "PropertyType"))
  then VStr "Invalid PropertyType (Must be 'Rent' or 'Sale')"
  else if negb (String.eqb (typeof (prop data "Price")) "number") || num_lt (prop data "Price") pos_zero
  then VStr "Invalid Price"
  else if negb (truthy (prop data "PropertyLocation")) || negb (String.eqb (typeof (prop data "PropertyLocation")) "string")
  then VStr "Invalid PropertyLocation"
  else VNull.

(** ** The table behind [docClient]

    The commands the handlers build.  [PropertyID] is the hash key of the
    table, so a condition on that attribute is a condition on the presence
    of the row. *)

Inductive condition : Type :=
  | attribute_exists_PropertyID
  | attribute_not_exists_PropertyID.

Inductive command : Type :=
  | PutCommand (Item : object) (ConditionExpression : condition)
  | GetCommand (Key : string)
  | UpdateCommand (Key : string) (SET : list (string * value))
      (ConditionExpression : condition)
  | DeleteCommand (Key : string) (ConditionExpression : condition)
  | ScanCommand (Limit : nat).

(** What a resolved [send] carries: [data.Item] and [data.Items]. *)
Record output : Type := Output {
  Item : option object;
  Items : list object;
}.

Definition no_data : output := {| Item := None; Items := [] |}.

(** A settled promise: resolved with data, or rejected with [err.message]. *)
Inductive settled : Type :=
  | Resolved (data : output)
  | Rejected (message : string).

(** The world a handler runs in: the rows of the table by key, the commands
    sent so far, and whether the backend is failing (throttling, network,
    permissions), in which case every call is rejected with that message. *)
Record world : Type := World {
  table : gmap string object;
  sent : list command;
  outage : option string;
}.

Definition holds (c : condition) (row : option object) : bool :=
  match c with
  | attribute_exists_PropertyID => bool_decide (is_Some row)
  | attribute_not_exists_PropertyID => bool_decide (row = None)
  end.

Definition key_of (Item : object) : option string :=
  match Item !! "PropertyID" with
  | Some (VStr k) => Some k
  | _ => None
  end.

Definition assign (row : object) (SET : list (string * value)) : object :=
  foldl (fun r kv => <[kv.1 := kv.2]> r) row SET.

Definition conditional_failed : string := "The conditional request failed".
Definition key_mismatch : string :=
  "One or more parameter values were invalid: Missing the key PropertyID in the item".

(** Modelled from the spec: the key-value store that [docClient.send]
    talks to is an external collaborator, not code of this repository.  Per
    the interface the spec lists for it: get-by-key, conditional put (fails
    if the key exists), conditional update (fails if the key is absent),
    conditional delete (fails if the key is absent) and a bounded scan, with
    a transport failure possible on any call.  Attribute values are kept as
    they are handed over.  The client library may refuse more than this
    contract says (a value it cannot marshal, an empty key); the properties
    below therefore state refusals and what follows from an acceptance, not
    that a request is bound to be accepted. *)
Definition execute (cmd : command) (t : gmap string object)
  : settled * gmap string object :=
  match cmd with
  | PutCommand Item c =>
      match key_of Item with
      | None => (Rejected key_mismatch, t)
      | Some k =>
          if holds c (t !! k) then (Resolved no_data, <[k := Item]> t)
          else (Rejected conditional_failed, t)
      end
  | GetCommand k => (Resolved {| Item := t !! k; Items := [] |}, t)
  | UpdateCommand k SET c =>
      if holds c (t !! k)
      then (Resolved no_data, <[k := assign (default ∅ (t !! k)) SET]> t)
      else (Rejected conditional_failed, t)
  | DeleteCommand k c =>
      if holds c (t !! k) then (Resolved no_data, delete k t)
      else (Rejected conditional_failed, t)
  | ScanCommand Limit =>
      (Resolved {| Item := None; Items := take Limit (map_to_list t).*2 |}, t)
  end.

(** [await docClient.send(params)]. *)
Definition send (cmd : command) (w : world) : settled * world :=
  match outage w with
  | Some message =>
      (Rejected message,
       {| table := table w; sent := sent w ++ [cmd]; outage := outage w |})
  | None =>
      let '(r, t) := execute cmd (table w) in
      (r, {| table := t; sent := sent w ++ [cmd]; outage := outage w |})
  end.

(** ** Responses *)

Inductive payload : Type :=
  | Error (error : value)
  | ErrorDetails (error details : string)
  | Message (message : string)
  | Listing (item : object)
  | Listings (items : list object).

Record response : Type := Response {
  status : nat;
  json : payload;
}.

(** ** The handlers, sanitizing revision *)

Module V1.
Section Sanitizer.

(** The [xss] package is a dependency; the handlers only apply it. *)
Variable xss : value -> string.

Definition sanitizeInput (data : object) : object :=
  <["PropertyID" := VStr (xss (prop data "PropertyID"))]>
  (<["Title" := VStr (xss (prop data "Title"))]>
  (<["Description" := VStr (xss (prop data "Description"))]>
  (<["PropertyType" := VStr (xss (prop data "PropertyType"))]>
  (<["Price" := prop data "Price"]>
  (<["PropertyLocation" := VStr (xss (prop data "PropertyLocation"))]> ∅))))).

(** POST /property *)
Definition create (body : object) (w : world) : response * world :=
  let error := validateProperty body in
  if truthy error then ({| status := 400; json := Error error |}, w)
  else
    let sanitized := sanitizeInput body in
    match send (PutCommand sanitized attribute_not_exists_PropertyID) w with
    | (Resolved _, w') =>
        ({| status := 201; json := Message "Property created successfully" |}, w')
    | (Rejected message, w') =>
        ({| status := 500; json := ErrorDetails "Error creating property" message |}, w')
    end.

(** GET /property/:id *)
Definition read (id : string) (w : world) : response * world :=
  match send (GetCommand id) w with
  | (Resolved data, w') =>
      match Item data with
      | None => ({| status := 404; json := Error (VStr "Property not found") |}, w')
      | Some item => ({| status := 201; json := Listing item |}, w')
      end
  | (Rejected message, w') =>
      ({| status := 500; json := ErrorDetails "Error fetching property" message |}, w')
  end.

(** PUT /property/:id *)
Definition update (id : string) (body : object) (w : world) : response * world :=
  let sanitized := sanitizeInput body in
  let Title := prop sanitized "Title" in
  let Description := prop sanitized "Description" in
  let PropertyType := prop sanitized "PropertyType" in
  let Price := prop sanitized "Price" in
  let PropertyLocation := prop sanitized "PropertyLocation" in
  if negb (truthy Title) && negb (truthy Description) && negb (truthy PropertyType)
     && negb (truthy Price) && negb (truthy PropertyLocation)
  then ({| status := 400; json := Error (VStr "No fields to update") |}, w)
  else
    match send (UpdateCommand id
                  [("Title", Title); ("Description", Description);
                   ("PropertyType", PropertyType); ("Price", Price);
                   ("PropertyLocation", PropertyLocation)]
                  attribute_exists_PropertyID) w with
    | (Resolved _, w') =>
        ({| status := 200; json := Message "Property updated successfully" |}, w')
    | (Rejected message, w') =>
        ({| status := 500; json := ErrorDetails "Error updating property" message |}, w')
    end.

(** DELETE /property/:id *)
Definition remove (id : string) (w : world) : response * world :=
  match send (DeleteCommand id attribute_exists_PropertyID) w with
  | (Resolved _, w') =>
      ({| status := 200; json := Message "Property deleted successfully" |}, w')
  | (Rejected message, w') =>
      ({| status := 500; json := ErrorDetails "Error deleting property" message |}, w')
  end.

(** GET /properties *)
Definition list_all (w : world) : response * world :=
  match send (ScanCommand 10) w with
  | (Resolved data, w') => ({| status := 200; json := Listings (Items data) |}, w')
  | (Rejected message, w') =>
      ({| status := 500; json := ErrorDetails "Error fetching properties" message |}, w')
  end.

End Sanitizer.
End V1.

(** ** The handlers, secret-provider revision

  Same routes; the request body goes to the store as it was received. *)

Module V2.

(** POST /property *)
Definition create (body : object) (w : world) : response * world :=
  let error := validateProperty body in
  if truthy error then ({| status := 400; json := Error error |}, w)
  else
    match send (PutCommand body attribute_not_exists_PropertyID) w with
    | (Resolved _, w') =>
        ({| status := 201; json := Message "Property created successfully" |}, w')
    | (Rejected message, w') =>
        ({| status := 500; json := ErrorDetails "Error creating property" message |}, w')
    end.

(** GET /property/:id *)
Definition read (id : string) (w : world) : response * world :=
  match send (GetCommand id) w with
  | (Resolved data, w') =>
      match Item data with
      | None => ({| status := 404; json := Error (VStr "Property not found") |}, w')
      | Some item => ({| status := 201; json := Listing item |}, w')
      end
  | (Rejected message, w') =>
      ({| status := 500; json := ErrorDetails "Error fetching property" message |}, w')
  end.

(** PUT /property/:id *)
Definition update (id : string) (body : object) (w : world) : response * world :=
  let Title := prop body "Title" in
  let Description := prop body "Description" in
  let PropertyType := prop body "PropertyType" in
  let Price := prop body "Price" in
  let PropertyLocation := prop body "PropertyLocation" in
  if negb (truthy Title) && negb (truthy Description) && negb (truthy PropertyType)
     && negb (truthy Price) && negb (truthy PropertyLocation)
  then ({| status := 400; json := Error (VStr "No fields to update") |}, w)
  else
    match send (UpdateCommand id
                  [("Title", Title); ("Description", Description);
                   ("PropertyType", PropertyType); ("Price", Price);
                   ("PropertyLocation", PropertyLocation)]
                  attribute_exists_PropertyID) w with
    | (Resolved _, w') =>
        ({| status := 200; json := Message "Property updated successfully" |}, w')
    | (Rejected message, w') =>
        ({| status := 500; json := ErrorDetails "Error updating property" message |}, w')
    end.

(** DELETE /property/:id *)
Definition remove (id : string) (w : world) : response * world :=
  match send (DeleteCommand id attribute_exists_PropertyID) w with
  | (Resolved _, w') =>
      ({| status := 200; json := Message "Property deleted successfully" |}, w')
  | (Rejected message, w') =>
      ({| status := 500; json := ErrorDetails "Error deleting property" message |}, w')
  end.

(** GET /properties *)
Definition list_all (w : world) : response * world :=
  match send (ScanCommand 10) w with
  | (Resolved data, w') => ({| status := 200; json := Listings (Items data) |}, w')
  | (Rejected message, w') =>
      ({| status := 500; json := ErrorDetails "Error fetching properties" message |}, w')
  end.

End V2.

(** ** Start-up of the secret-provider revision

    [TABLE_NAME] is a module-level variable; [getDBSecret] replaces it by
    the [tableName] of the secret, or logs and ends the process. *)

Module Startup.

(** What the [catch] block can receive: the rejection of the call to the
    secret provider, or what [JSON.parse] and the property read throw. *)
Inductive thrown : Type :=
  | ProviderError (message : string)
  | SyntaxError
  | TypeError.

(** The outcome of [secretsClient.send(new GetSecretValueCommand(...))]:
    resolved with [data], whose [SecretString] is missing for a binary
    secret, or rejected. *)
Inductive reply : Type :=
  | SecretValue (SecretString : option string)
  | Failure (message : string).

Record process : Type := Process {
  TABLE_NAME : value;
  console_error : list thrown;
  exit_code : option nat;
}.

Definition initial : process :=
  {| TABLE_NAME := VStr "RealEstateListings"; console_error := []; exit_code := None |}.

(** [secret.tableName]: reading a property of [null] or [undefined] throws;
    of an object it gives the property or [undefined]; a number, a string,
    a boolean or an array has no such property. *)
Definition tableName (secret : value) : option value :=
  match secret with
  | VUndef | VNull => None
  | VObj props =>
      Some (default VUndef
              (snd <$> List.find (fun kv => String.eqb kv.1 "tableName") props))
  | _ => Some VUndef
  end.

(** The [catch] block: [console.error] and [process.exit(1)]. *)
Definition fail (error : thrown) (p : process) : process :=
  {| TABLE_NAME := TABLE_NAME p;
     console_error := console_error p ++ [error];
     exit_code := Some 1 |}.

Section Parser.

(** [JSON.parse] on a text: the value, or [None] when it throws. *)
Variable JSON_parse : string -> option value.

(** [JSON.parse(undefined)] reads the text "undefined", which is not JSON. *)
Definition getDBSecret (r : reply) (p : process) : process :=
  match r with
  | Failure message => fail (ProviderError message) p
  | SecretValue None => fail SyntaxError p
  | SecretValue (Some text) =>
      match JSON_parse text with
      | None => fail SyntaxError p
      | Some secret =>
          match tableName secret with
          | None => fail TypeError p
          | Some name =>
              {| TABLE_NAME := name;
                 console_error := console_error p;
                 exit_code := exit_code p |}
          end
      end
  end.

End Parser.
End Startup.

(** ** The data model, in the words of the specification *)

(** The required fields, in the order in which they are checked. *)
Definition check_order : list string :=
  ["PropertyID"; "Title"; "Description"; "PropertyType"; "Price"; "PropertyLocation"].

Definition nonempty_string (v : value) : bool :=
  match v with
  | VStr s => negb (String.eqb s "")
  | _ => false
  end.

(** [PropertyID], [Title], [Description] and [PropertyLocation] are
    non-empty strings, [PropertyType] is Rent or Sale, [Price] is a number
    that is at least 0. *)
Definition satisfies (k : string) (v : value) : bool :=
  if String.eqb k "PropertyType" then
    match v with
    | VStr s => String.eqb s "Rent" || String.eqb s "Sale"
    | _ => false
    end
  else if String.eqb k "Price" then
    match v with
    | VNum n => SFleb pos_zero n
    | _ => false
    end
  else nonempty_string v.

Definition first_offending (body : object) : option string :=
  List.find (fun k => negb (satisfies k (prop body k))) check_order.

(** A message names a field when it reads "Invalid <field>...". *)
Definition names (message k : string) : bool :=
  String.prefix ("Invalid " ++ k) message.

(** The fields an update rewrites. *)
Definition mutable_fields : list string :=
  ["Title"; "Description"; "PropertyType"; "Price"; "PropertyLocation"].

(** The value an update carries for a mutable field: [Price] as it came,
    the text fields through the sanitizer. *)
Definition supplied (xss : value -> string) (body : object) (k : string) : value :=
  if String.eqb k "Price" then prop body k else VStr (xss (prop body k)).

(** What a mutable field becomes when the payload does not have it. *)
Definition blank (k : string) : value :=
  if String.eqb k "Price" then VUndef else VStr "".

(** ** Sample data *)

(** A sanitizer to run the sanitizing handlers with: text has its angle
    brackets escaped, anything falsy comes out empty. *)
Fixpoint escape_brackets (s : string) : string :=
  match s with
  | EmptyString => ""
  | String c r =>
      if Ascii.eqb c "<"%char then "&lt;" ++ escape_brackets r
      else if Ascii.eqb c ">"%char then "&gt;" ++ escape_brackets r
      else String c (escape_brackets r)
  end.

Definition escaping (v : value) : string :=
  match v with
  | VStr s => escape_brackets s
  | _ => ""
  end.

Definition finite (neg : bool) (m : positive) (e : Z) : value :=
  VNum (S754_finite neg m e).

(** 100 = 25 * 2^2, 5 = 5 * 2^0. *)
Definition hundred : value := finite false 25 2.
Definition minus_five : value := finite true 5 0.

Definition listing_p1 : object :=
  <["PropertyID" := VStr "p1"]>
  (<["Title" := VStr "A"]>
  (<["Description" := VStr "d"]>
  (<["PropertyType" := VStr "Rent"]>
  (<["Price" := hundred]>
  (<["PropertyLocation" := VStr "X"]> ∅))))).

Definition empty_world : world := {| table := ∅; sent := []; outage := None |}.
Definition world_p1 : world :=
  {| table := {[ "p1" := listing_p1 ]}; sent := []; outage := None |}.

Definition script_listing : object :=
  <["PropertyID" := VStr "p2"]>
  (<["Title" := VStr "<script>alert(1)</script>"]>
  (<["Description" := VStr "d"]>
  (<["PropertyType" := VStr "Sale"]>
  (<["Price" := hundred]>
  (<["PropertyLocation" := VStr "X"]> ∅))))).

Definition only_title : object := {[ "Title" := VStr "B" ]}.
Definition title_and_price : object := <["Title" := VStr "B"]> {[ "Price" := hundred ]}.

(** All five mutable fields, with markup in the Title and a PropertyType
    that is neither Rent nor Sale. *)
Definition full_update : object :=
  <["Title" := VStr "<b>B</b>"]>
  (<["Description" := VStr "d2"]>
  (<["PropertyType" := VStr "Lease"]>
  (<["Price" := hundred]>
  (<["PropertyLocation" := VStr "Y"]> ∅)))).


(** The listing p1 with a property outside the data model. *)
Definition with_owner : object := <["Owner" := VStr "o"]> listing_p1.

(** Two rows, under p1 and under a. *)
Definition world_two : world :=
  {| table := <["a" := <["PropertyID" := VStr "a"]> listing_p1]> {[ "p1" := listing_p1 ]};
     sent := []; outage := None |}.
Definition only_price (n : spec_float) : object := {[ "Price" := VNum n ]}.
Definition negative_price : object := {[ "Price" := minus_five ]}.
Definition no_title : object := delete "Title" listing_p1.

(** Eleven listings, keyed a to k. *)
Definition eleven : gmap string object :=
  list_to_map ((fun k => (k, <["PropertyID" := VStr k]> listing_p1))
                 <$> ["a"; "b"; "c"; "d"; "e"; "f"; "g"; "h"; "i"; "j"; "k"]).

Definition world_eleven : world := {| table := eleven; sent := []; outage := None |}.

(** The worlds the scenarios of the specification go through. *)
Definition after_create : world := (V1.create escaping listing_p1 empty_world).2.
Definition after_update : world := (V1.update escaping "p1" title_and_price after_create).2.
Definition after_delete : world := (V1.remove "p1" after_update).2.

(** ** Notions used to state what the handlers keep *)

(** Every row sits under the key that its own [PropertyID] spells. *)
Definition keyed (t : gmap string object) : Prop :=
  map_Forall (fun k (row : object) => row !! "PropertyID" = Some (VStr k)) t.

(** The world after [cmd] went out and left the table as [t]. *)
Definition after_send (cmd : command) (t : gmap string object) (w : world) : world :=
  {| table := t; sent := sent w ++ [cmd]; outage := outage w |}.

(** The test both update handlers start with. *)
Definition nothing_supplied (Title Description PropertyType Price PropertyLocation : value)
  : bool :=
  negb (truthy Title) && negb (truthy Description) && negb (truthy PropertyType)
  && negb (truthy Price) && negb (truthy PropertyLocation).

(** The assignments the update handlers put in their [UpdateCommand]. *)
Definition assignments (Title Description PropertyType Price PropertyLocation : value)
  : list (string * value) :=
  [("Title", Title); ("Description", Description); ("PropertyType", PropertyType);
   ("Price", Price); ("PropertyLocation", PropertyLocation)].

Definition update_set (xss : value -> string) (body : object) : list (string * value) :=
  assignments (VStr (xss (prop body "Title"))) (VStr (xss (prop body "Description")))
              (VStr (xss (prop body "PropertyType"))) (prop body "Price")
              (VStr (xss (prop body "PropertyLocation"))).

Definition update_set_raw (body : object) : list (string * value) :=
  assignments (prop body "Title") (prop body "Description")
              (prop body "PropertyType") (prop body "Price")
              (prop body "PropertyLocation").

(** A secret as the provider holds it, a JSON object with [tableName], and
    a parser to run [getDBSecret] with, which knows three texts. *)
Definition quote : string := String (Ascii.ascii_of_nat 34) EmptyString.

Definition secret_text : string :=
  "{" ++ quote ++ "tableName" ++ quote ++ ":" ++ quote ++ "Listings" ++ quote ++ "}".

Definition sample_parse (text : string) : option value :=
  if String.eqb text secret_text then Some (VObj [("tableName", VStr "Listings")])
  else if String.eqb text "{}" then Some (VObj [])
  else if String.eqb text "null" then Some VNull
  else None.

(** ** Properties *)

(** Membership of a given name in a given list, and the cases of a name
    known to be in one. *)
Ltac solve_member :=
  repeat first [apply list_elem_of_here | apply list_elem_of_further].

Ltac cases_member H :=
  repeat (apply elem_of_cons in H as [->|H]); [..|by apply elem_of_nil in H].

(** *** The store *)

Lemma send_outage cmd w message :
  outage w = Some message →
  send cmd w = (Rejected message,
                {| table := table w; sent := sent w ++ [cmd]; outage := outage w |}).
Proof. intros H. unfold send. by rewrite H. Qed.

Lemma send_serving cmd w :
  outage w = None →
  send cmd w = ((execute cmd (table w)).1,
                {| table := (execute cmd (table w)).2;
                   sent := sent w ++ [cmd]; outage := outage w |}).
Proof. intros H. unfold send. rewrite H. by destruct (execute cmd (table w)). Qed.

(** A put never touches a row that is already there. *)
Lemma execute_put_preserves Item t k row :
  t !! k = Some row →
  (execute (PutCommand Item attribute_not_exists_PropertyID) t).2 !! k = Some row.
Proof.
  intros Hk. simpl. destruct (key_of Item) as [k'|]; [|done].
  destruct (t !! k') as [r|] eqn:Hk'; simpl; [done|].
  rewrite lookup_insert_ne; [done|]. intros ->. congruence.
Qed.

(** *** Sanitized objects *)

Lemma key_of_sanitized xss data :
  key_of (V1.sanitizeInput xss data) = Some (xss (prop data "PropertyID")).
Proof. unfold key_of, V1.sanitizeInput. by rewrite lookup_insert_eq. Qed.

Lemma prop_sanitized_text xss data k :
  k ∈ ["PropertyID"; "Title"; "Description"; "PropertyType"; "PropertyLocation"] →
  prop (V1.sanitizeInput xss data) k = VStr (xss (prop data k)).
Proof.
  intros Hk. unfold prop at 1, V1.sanitizeInput.
  repeat (apply elem_of_cons in Hk as [->|Hk]; [by simplify_map_eq|]).
  by apply elem_of_nil in Hk.
Qed.

Lemma prop_sanitized_Price xss data :
  prop (V1.sanitizeInput xss data) "Price" = prop data "Price".
Proof. unfold prop at 1, V1.sanitizeInput. by simplify_map_eq. Qed.

(** *** Validation *)

Lemma validateProperty_result data :
  validateProperty data = VNull ∨ truthy (validateProperty data) = true.
Proof.
  unfold validateProperty.
  repeat match goal with
         | |- context [if ?c then _ else _] => destruct c
         end; auto.
Qed.

(** *** Create *)

Lemma create_invalid xss body w :
  truthy (validateProperty body) = true →
  V1.create xss body w = ({| status := 400; json := Error (validateProperty body) |}, w).
Proof. intros H. unfold V1.create. by rewrite H. Qed.

(** Whatever the request, rows already in the table come out as they were. *)
Lemma create_preserves_rows xss body w k row :
  table w !! k = Some row → table (V1.create xss body w).2 !! k = Some row.
Proof.
  intros Hk. unfold V1.create.
  destruct (truthy (validateProperty body)); [done|].
  destruct (outage w) as [m|] eqn:Ho.
  - by rewrite (send_outage _ _ _ Ho).
  - rewrite (send_serving _ _ Ho).
    pose proof (execute_put_preserves (V1.sanitizeInput xss body) _ _ _ Hk) as Hp.
    by destruct (execute _ _) as [[?|?] ?].
Qed.




(** The same holds where the body is stored as received. *)
Lemma create_existing_id_rejected_raw body w id row :
  prop body "PropertyID" = VStr id →
  table w !! id = Some row →
  status (V2.create body w).1 ≠ 201 ∧ table (V2.create body w).2 = table w.
Proof.
  intros Hid Hrow. unfold V2.create.
  destruct (truthy (validateProperty body)); [done|].
  assert (Hk : key_of body = Some id).
  { unfold key_of. unfold prop in Hid. destruct (body !! "PropertyID") as [[]|]; naive_solver. }
  destruct (outage w) as [m|] eqn:Ho.
  - by rewrite (send_outage _ _ _ Ho).
  - rewrite (send_serving _ _ Ho). simpl. by rewrite Hk, Hrow.
Qed.

(** *** Update and delete *)

(** *** Update and delete on a missing id *)

Lemma update_send_rejected id SET w :
  table w !! id = None →
  send (UpdateCommand id SET attribute_exists_PropertyID) w
  = (Rejected (default conditional_failed (outage w)),
     {| table := table w;
        sent := sent w ++ [UpdateCommand id SET attribute_exists_PropertyID];
        outage := outage w |}).
Proof.
  intros Hid. destruct (outage w) as [m|] eqn:Ho.
  - by rewrite (send_outage _ _ _ Ho), Ho.
  - rewrite (send_serving _ _ Ho). simpl. by rewrite Hid, Ho.
Qed.

Lemma delete_send_rejected id w :
  table w !! id = None →
  send (DeleteCommand id attribute_exists_PropertyID) w
  = (Rejected (default conditional_failed (outage w)),
     {| table := table w;
        sent := sent w ++ [DeleteCommand id attribute_exists_PropertyID];
        outage := outage w |}).
Proof.
  intros Hid. destruct (outage w) as [m|] eqn:Ho.
  - by rewrite (send_outage _ _ _ Ho), Ho.
  - rewrite (send_serving _ _ Ho). simpl. by rewrite Hid, Ho.
Qed.

(** C2: on an id with no stored listing, an update is answered 400 (nothing
    to update) or with the 500 "Error updating property" response carrying
    the rejection of the existence guard, a delete is answered with the 500
    "Error deleting property" response, and after either the table is as it
    was: there is still no listing under that id. *)
Theorem update_delete_missing_id_rejected xss id body w :
  table w !! id = None →
  ((V1.update xss id body w).1
     = {| status := 400; json := Error (VStr "No fields to update") |}
   ∨ (V1.update xss id body w).1
     = {| status := 500;
          json := ErrorDetails "Error updating property"
                    (default conditional_failed (outage w)) |})
  ∧ table (V1.update xss id body w).2 = table w
  ∧ table (V1.update xss id body w).2 !! id = None
  ∧ (V1.remove id w).1
    = {| status := 500;
         json := ErrorDetails "Error deleting property"
                   (default conditional_failed (outage w)) |}
  ∧ table (V1.remove id w).2 = table w
  ∧ table (V1.remove id w).2 !! id = None.
Proof.
  intros Hid. unfold V1.update, V1.remove.
  rewrite (delete_send_rejected _ _ Hid).
  match goal with
  | |- context [if ?c then _ else _] => destruct c
  end.
  - simpl. repeat split; auto.
  - rewrite (update_send_rejected _ _ _ Hid). simpl. repeat split; auto.
Qed.

Lemma update_delete_missing_id_rejected_witness :
  (V1.update escaping "p9" only_title world_p1).1
  = {| status := 500;
       json := ErrorDetails "Error updating property" conditional_failed |}
  ∧ (V1.remove "p9" world_p1).1
    = {| status := 500;
         json := ErrorDetails "Error deleting property" conditional_failed |}
  ∧ table (V1.update escaping "p9" only_title world_p1).2 !! "p9" = None
  ∧ table (V1.remove "p9" world_p1).2 !! "p9" = None.
Proof.
  destruct (update_delete_missing_id_rejected escaping "p9" only_title world_p1)
    as (_ & _ & Hu & Hd & _ & Hd').
  - reflexivity.
  - split; [reflexivity|]. split; [exact Hd|]. split; [exact Hu | exact Hd'].
Defined.

(** *** Read *)

Lemma read_found id w row :
  outage w = None → table w !! id = Some row →
  (V1.read id w).1 = {| status := 201; json := Listing row |}.
Proof.
  intros Ho Hid. unfold V1.read. rewrite (send_serving _ _ Ho). simpl. by rewrite Hid.
Qed.

Lemma read_missing id w :
  outage w = None → table w !! id = None →
  (V1.read id w).1 = {| status := 404; json := Error (VStr "Property not found") |}.
Proof.
  intros Ho Hid. unfold V1.read. rewrite (send_serving _ _ Ho). simpl. by rewrite Hid.
Qed.

Lemma read_table id w : table (V1.read id w).2 = table w.
Proof.
  unfold V1.read. destruct (outage w) as [m|] eqn:Ho.
  - by rewrite (send_outage _ _ _ Ho).
  - rewrite (send_serving _ _ Ho). simpl. by destruct (table w !! id).
Qed.

(** C5: reading the stored listing p1 is answered with the listing as the
    body, but under status 201, in both revisions; a missing id is answered
    404. *)
Theorem read_existing_answers_201 :
  (V1.read "p1" world_p1).1 = {| status := 201; json := Listing listing_p1 |}
  ∧ (V2.read "p1" world_p1).1 = {| status := 201; json := Listing listing_p1 |}
  ∧ status (V1.read "p1" world_p1).1 ≠ 200
  ∧ (V1.read "p9" world_p1).1
    = {| status := 404; json := Error (VStr "Property not found") |}.
Proof. repeat split; try reflexivity. simpl. discriminate. Qed.

(** *** List *)

Lemma scan_length n (t : gmap string object) :
  length (take n (map_to_list t).*2) = n `min` size t.
Proof. by rewrite length_take, length_fmap, length_map_to_list. Qed.

(** C8: whatever the table holds, the list operation answers with at most
    10 records: with the backend serving it answers 200 and the first
    min(10, number of rows) rows of the scan, and no answer of it carries
    more than 10; the table is not changed. *)
Theorem list_all_at_most_ten w :
  (outage w = None →
   ∃ items, (V1.list_all w).1 = {| status := 200; json := Listings items |}
            ∧ length items = 10 `min` size (table w))
  ∧ (∀ items, json (V1.list_all w).1 = Listings items → (length items ≤ 10)%nat)
  ∧ table (V1.list_all w).2 = table w.
Proof.
  unfold V1.list_all. destruct (outage w) as [m|] eqn:Ho.
  - rewrite (send_outage _ _ _ Ho). simpl. split; [done|]. split; done.
  - rewrite (send_serving _ _ Ho). simpl. split; [|split; [|done]].
    + intros _. eexists. split; [reflexivity | apply scan_length].
    + intros items [= <-]. rewrite scan_length. lia.
Qed.

Lemma list_all_at_most_ten_witness :
  size eleven = 11
  ∧ ∃ items,
      (V1.list_all world_eleven).1 = {| status := 200; json := Listings items |}
      ∧ length items = 10 `min` size (table world_eleven).
Proof.
  split; [reflexivity|].
  destruct (list_all_at_most_ten world_eleven) as (Hserving & _ & _).
  apply Hserving. reflexivity.
Defined.

Example list_all_eleven :
  ∃ items,
    (V1.list_all world_eleven).1 = {| status := 200; json := Listings items |}
    ∧ length items = 10.
Proof. eexists; split; reflexivity. Qed.

(** *** Validation against the data model *)

Lemma text_check v :
  negb (truthy v) || negb (String.eqb (typeof v) "string") = negb (nonempty_string v).
Proof.
  destruct v as [| |b|n|s|l|l]; try reflexivity.
  - by destruct b.
  - by destruct n.
  - simpl. by rewrite orb_false_r.
Qed.

Lemma type_check v :
  negb (includes [VStr "Rent"; VStr "Sale"] v) = negb (satisfies "PropertyType" v).
Proof.
  destruct v as [| |b|n|s|l|l]; try reflexivity.
  change (satisfies "PropertyType" (VStr s))
    with (String.eqb s "Rent" || String.eqb s "Sale").
  unfold includes. cbn [existsb same_value_zero].
  by rewrite orb_false_r, (String.eqb_sym s "Rent"), (String.eqb_sym s "Sale").
Qed.

Lemma price_check v :
  isNaN v = false →
  negb (String.eqb (typeof v) "number") || num_lt v pos_zero = negb (satisfies "Price" v).
Proof.
  intros Hnan. destruct v as [| |b|n|s|l|l]; try reflexivity.
  destruct n as [sg|sg| |sg m e]; try discriminate; by destruct sg.
Qed.

(** The helper stops at the first field of the check order that breaks the
    data model, and passes exactly when there is none. *)
Lemma validateProperty_first_offending body :
  isNaN (prop body "Price") = false →
  match first_offending body with
  | Some k => ∃ message, validateProperty body = VStr message ∧ names message k = true
  | None => validateProperty body = VNull
  end.
Proof.
  intros Hnan. unfold validateProperty, first_offending, check_order.
  rewrite !text_check, type_check, (price_check _ Hnan).
  cbn [List.find].
  change (satisfies "PropertyID" (prop body "PropertyID"))
    with (nonempty_string (prop body "PropertyID")).
  change (satisfies "Title" (prop body "Title"))
    with (nonempty_string (prop body "Title")).
  change (satisfies "Description" (prop body "Description"))
    with (nonempty_string (prop body "Description")).
  change (satisfies "PropertyLocation" (prop body "PropertyLocation"))
    with (nonempty_string (prop body "PropertyLocation")).
  repeat match goal with
         | |- context [if negb ?c then _ else _] => destruct c; cbn [negb]
         end; try (eexists; split; reflexivity); reflexivity.
Qed.

(** C3: when some required field of a create request breaks the data model
    (the body being parsed JSON, its Price is not NaN), the answer is 400,
    its message names the first such field in the order PropertyID, Title,
    Description, PropertyType, Price, PropertyLocation, and the world is
    left as it was: nothing is sent to the store and the table is
    unchanged. *)
Theorem create_invalid_rejected xss body w k :
  isNaN (prop body "Price") = false →
  k ∈ check_order →
  satisfies k (prop body k) = false →
  ∃ k0 message,
    first_offending body = Some k0
    ∧ names message k0 = true
    ∧ V1.create xss body w = ({| status := 400; json := Error (VStr message) |}, w).
Proof.
  intros Hnan Hk Hbad.
  pose proof (validateProperty_first_offending body Hnan) as Hv.
  destruct (first_offending body) as [k0|] eqn:Hfirst.
  - destruct Hv as (message & Hmsg & Hname).
    exists k0, message. split; [done|]. split; [done|].
    rewrite <- Hmsg. apply create_invalid.
    destruct (validateProperty_result body) as [E|E]; [congruence | done].
  - unfold first_offending in Hfirst.
    apply list_elem_of_In in Hk.
    pose proof (List.find_none _ _ Hfirst k Hk) as Hok. simpl in Hok.
    by rewrite Hbad in Hok.
Qed.

Lemma create_invalid_rejected_witness :
  ∃ k0 message,
    first_offending no_title = Some k0
    ∧ names message k0 = true
    ∧ V1.create escaping no_title world_p1
      = ({| status := 400; json := Error (VStr message) |}, world_p1).
Proof.
  apply (create_invalid_rejected escaping no_title world_p1 "Title").
  - reflexivity.
  - unfold check_order. solve_member.
  - reflexivity.
Defined.

Example create_negative_price :
  V1.create escaping (<["Price" := minus_five]> listing_p1) empty_world
  = ({| status := 400; json := Error (VStr "Invalid Price") |}, empty_world).
Proof. reflexivity. Qed.

(** *** What create persists *)

Lemma create_persists_sanitized xss body w :
  status (V1.create xss body w).1 = 201 →
  table (V1.create xss body w).2 !! xss (prop body "PropertyID")
  = Some (V1.sanitizeInput xss body)
  ∧ ∀ k, k ∈ ["PropertyID"; "Title"; "Description"; "PropertyType"; "PropertyLocation"] →
         prop (V1.sanitizeInput xss body) k = VStr (xss (prop body k)).
Proof.
  intros H201. split; [|apply prop_sanitized_text].
  revert H201. unfold V1.create.
  destruct (truthy (validateProperty body)); [done|].
  destruct (outage w) as [m|] eqn:Ho.
  - by rewrite (send_outage _ _ _ Ho).
  - rewrite (send_serving _ _ Ho). simpl. rewrite key_of_sanitized.
    destruct (table w !! xss (prop body "PropertyID")); simpl; [done|].
    intros _. by rewrite lookup_insert_eq.
Qed.

(** C4: in the revision that stores the body as received, a valid create
    request whose Title carries a script element is answered 201 and the
    Title of the stored listing is that markup, character for character. *)
Theorem create_raw_stores_markup :
  validateProperty script_listing = VNull
  ∧ status (V2.create script_listing empty_world).1 = 201
  ∧ (table (V2.create script_listing empty_world).2 !! "p2") ≫= (.!! "Title")
    = Some (VStr "<script>alert(1)</script>")
  ∧ (V2.read "p2" (V2.create script_listing empty_world).2).1
    = {| status := 201; json := Listing script_listing |}.
Proof. repeat split. Qed.

(** *** Update *)

(** The row an accepted update leaves behind. *)
Lemma assign_mutable (row : object) (t d ty p l : value) (k : string) :
  assign row [("Title", t); ("Description", d); ("PropertyType", ty);
              ("Price", p); ("PropertyLocation", l)] !! k
  = if decide (k = "PropertyLocation") then Some l
    else if decide (k = "Price") then Some p
    else if decide (k = "PropertyType") then Some ty
    else if decide (k = "Description") then Some d
    else if decide (k = "Title") then Some t
    else row !! k.
Proof.
  unfold assign. cbn [foldl fst snd].
  repeat (case_decide; [subst k; by simplify_map_eq|]).
  by rewrite !lookup_insert_ne.
Qed.

(** An update that is answered 200 found the row and replaced it by the row
    with the five assignments applied. *)
Lemma update_accepted xss id body w :
  status (V1.update xss id body w).1 = 200 →
  ∃ row, table w !! id = Some row
    ∧ table (V1.update xss id body w).2
      = <[id := assign row
                  [("Title", prop (V1.sanitizeInput xss body) "Title");
                   ("Description", prop (V1.sanitizeInput xss body) "Description");
                   ("PropertyType", prop (V1.sanitizeInput xss body) "PropertyType");
                   ("Price", prop (V1.sanitizeInput xss body) "Price");
                   ("PropertyLocation", prop (V1.sanitizeInput xss body) "PropertyLocation")]]>
        (table w).
Proof.
  unfold V1.update.
  match goal with
  | |- context [if ?c then _ else _] => destruct c; [done|]
  end.
  destruct (outage w) as [m|] eqn:Ho.
  - by rewrite (send_outage _ _ _ Ho).
  - rewrite (send_serving _ _ Ho). cbn [execute].
    destruct (table w !! id) as [row|]; [|done].
    intros _. by exists row.
Qed.

Section Sanitizing.

Variable xss : value → string.

(** What the [xss] package does first with its argument:
    [html = html || ""], and an empty string is returned as it is. *)
Hypothesis xss_falsy : ∀ v, truthy v = false → xss v = "".

Lemma sanitized_falsy body k :
  k ∈ mutable_fields →
  truthy (prop body k) = false →
  truthy (prop (V1.sanitizeInput xss body) k) = false.
Proof.
  intros Hk Hf. unfold mutable_fields in Hk. cases_member Hk;
    first [ by rewrite prop_sanitized_Price
          | rewrite prop_sanitized_text by solve_member;
            by rewrite (xss_falsy _ Hf) ].
Qed.

(** C6: an update that is accepted (answered 200) found a row under the id
    and left in its place a row in which each of Title, Description,
    PropertyType, Price and PropertyLocation holds the value supplied for it
    (the text fields as sanitized), a field missing from the payload being
    the empty string, or undefined for Price, and in which every other
    attribute, PropertyID among them, is as before. *)
Theorem update_rewrites_mutable_fields id body w :
  status (V1.update xss id body w).1 = 200 →
  ∃ row row',
    table w !! id = Some row
    ∧ table (V1.update xss id body w).2 = <[id := row']> (table w)
    ∧ (∀ k, k ∈ mutable_fields → row' !! k = Some (supplied xss body k))
    ∧ (∀ k, k ∈ mutable_fields → body !! k = None → row' !! k = Some (blank k))
    ∧ (∀ k, k ∉ mutable_fields → row' !! k = row !! k)
    ∧ row' !! "PropertyID" = row !! "PropertyID".
Proof.
  intros H200. destruct (update_accepted _ _ _ _ H200) as (row & Hrow & Htable).
  eexists row, _. split; [exact Hrow|]. split; [exact Htable|].
  assert (Hsup : ∀ k, k ∈ mutable_fields →
            assign row
              [("Title", prop (V1.sanitizeInput xss body) "Title");
               ("Description", prop (V1.sanitizeInput xss body) "Description");
               ("PropertyType", prop (V1.sanitizeInput xss body) "PropertyType");
               ("Price", prop (V1.sanitizeInput xss body) "Price");
               ("PropertyLocation", prop (V1.sanitizeInput xss body) "PropertyLocation")]
            !! k = Some (supplied xss body k)).
  { intros k Hk. rewrite assign_mutable. unfold mutable_fields in Hk.
    cases_member Hk; repeat case_decide; try done;
      first [ by rewrite prop_sanitized_Price
            | by rewrite prop_sanitized_text by solve_member ]. }
  split; [exact Hsup|]. split; [|split].
  - intros k Hk Habsent. rewrite (Hsup k Hk). unfold supplied, blank, prop.
    rewrite Habsent. cbn [default].
    destruct (String.eqb k "Price"); [done|]. by rewrite xss_falsy.
  - intros k Hk. rewrite assign_mutable. unfold mutable_fields in Hk.
    rewrite !not_elem_of_cons in Hk. destruct Hk as (? & ? & ? & ? & ? & _).
    by repeat case_decide.
  - by rewrite assign_mutable.
Qed.

(** C7: an update whose payload has nothing in any of the five mutable
    fields (each is missing, empty or otherwise falsy) is answered 400 "No
    fields to update" and the world is left as it was: nothing is sent to
    the store. *)
Theorem update_without_fields_rejected id body w :
  (∀ k, k ∈ mutable_fields → truthy (prop body k) = false) →
  V1.update xss id body w
  = ({| status := 400; json := Error (VStr "No fields to update") |}, w).
Proof.
  intros Hnone. unfold V1.update.
  rewrite !sanitized_falsy; [done|..];
    first [ apply Hnone | idtac ]; unfold mutable_fields; solve_member.
Qed.

(** C9: an update whose payload has Price equal to 0 (of either sign) and
    none of the other mutable fields is answered 400 "No fields to update",
    in the sanitizing revision and in the one that reads the body directly,
    and nothing reaches the store, so the listing keeps its price. *)
Theorem update_price_zero_rejected id body sign w :
  body !! "Price" = Some (VNum (S754_zero sign)) →
  (∀ k, k ∈ ["Title"; "Description"; "PropertyType"; "PropertyLocation"] →
        body !! k = None) →
  V1.update xss id body w
  = ({| status := 400; json := Error (VStr "No fields to update") |}, w)
  ∧ V2.update id body w
    = ({| status := 400; json := Error (VStr "No fields to update") |}, w).
Proof.
  intros Hprice Hrest.
  assert (Hfalsy : ∀ k, k ∈ mutable_fields → truthy (prop body k) = false).
  { intros k Hk. unfold mutable_fields in Hk. unfold prop.
    cases_member Hk;
      first [ by rewrite Hprice | rewrite Hrest; [done | solve_member] ]. }
  split.
  - unfold V1.update.
    rewrite !sanitized_falsy; [done|..];
      first [ apply Hfalsy | idtac ]; unfold mutable_fields; solve_member.
  - unfold V2.update.
    rewrite !Hfalsy; [done|..]; unfold mutable_fields; solve_member.
Qed.

End Sanitizing.

Lemma escaping_falsy v : truthy v = false → escaping v = "".
Proof.
  destruct v as [| |b|n|s|l|l]; try reflexivity.
  simpl. destruct s; [reflexivity | discriminate].
Qed.

Lemma update_rewrites_mutable_fields_witness :
  ∃ row row',
    table world_p1 !! "p1" = Some row
    ∧ table (V1.update escaping "p1" title_and_price world_p1).2
      = <["p1" := row']> (table world_p1)
    ∧ (∀ k, k ∈ mutable_fields → row' !! k = Some (supplied escaping title_and_price k))
    ∧ (∀ k, k ∈ mutable_fields → title_and_price !! k = None → row' !! k = Some (blank k))
    ∧ (∀ k, k ∉ mutable_fields → row' !! k = row !! k)
    ∧ row' !! "PropertyID" = row !! "PropertyID".
Proof.
  apply (update_rewrites_mutable_fields escaping escaping_falsy "p1" title_and_price
           world_p1).
  reflexivity.
Defined.

Example update_title_and_price :
  table (V1.update escaping "p1" title_and_price world_p1).2 !! "p1"
  = Some (<["PropertyID" := VStr "p1"]>
          (<["Title" := VStr "B"]>
          (<["Description" := VStr ""]>
          (<["PropertyType" := VStr ""]>
          (<["Price" := hundred]>
          (<["PropertyLocation" := VStr ""]> ∅)))))).
Proof. reflexivity. Qed.

Lemma update_without_fields_rejected_witness :
  V1.update escaping "p1" ∅ world_p1
  = ({| status := 400; json := Error (VStr "No fields to update") |}, world_p1).
Proof.
  apply (update_without_fields_rejected escaping escaping_falsy "p1" ∅ world_p1).
  intros k _. reflexivity.
Defined.

Lemma update_price_zero_rejected_witness :
  V1.update escaping "p1" (only_price pos_zero) world_p1
  = ({| status := 400; json := Error (VStr "No fields to update") |}, world_p1)
  ∧ V2.update "p1" (only_price pos_zero) world_p1
    = ({| status := 400; json := Error (VStr "No fields to update") |}, world_p1).
Proof.
  apply (update_price_zero_rejected escaping escaping_falsy "p1"
           (only_price pos_zero) false world_p1).
  - reflexivity.
  - intros k Hk. cases_member Hk; reflexivity.
Defined.

(** *** Update does not validate *)

Lemma validateProperty_negative_price data :
  num_lt (prop data "Price") pos_zero = true →
  truthy (validateProperty data) = true.
Proof.
  intros Hneg. unfold validateProperty. rewrite Hneg, orb_true_r.
  repeat match goal with
         | |- context [if ?c then _ else _] => destruct c
         end; reflexivity.
Qed.

(** C10: update checks no value.  The listing p1 passes the validation of
    create; the update of p1 with the payload that has only Price, equal to
    -5, is answered 200 whatever the sanitizer does; the row stored
    afterwards has Price -5, which is below 0, and would be refused by the
    validation of create. *)
Theorem update_admits_negative_price xss :
  validateProperty listing_p1 = VNull
  ∧ (V1.update xss "p1" negative_price world_p1).1
    = {| status := 200; json := Message "Property updated successfully" |}
  ∧ ∃ row',
      table (V1.update xss "p1" negative_price world_p1).2 !! "p1" = Some row'
      ∧ row' !! "Price" = Some minus_five
      ∧ num_lt minus_five pos_zero = true
      ∧ satisfies "Price" (prop row' "Price") = false
      ∧ truthy (validateProperty row') = true.
Proof.
  split; [reflexivity|].
  assert (Hgo : V1.update xss "p1" negative_price world_p1
    = ({| status := 200; json := Message "Property updated successfully" |},
       {| table :=
            <["p1" := assign listing_p1
                 [("Title", VStr (xss VUndef)); ("Description", VStr (xss VUndef));
                  ("PropertyType", VStr (xss VUndef)); ("Price", minus_five);
                  ("PropertyLocation", VStr (xss VUndef))]]> (table world_p1);
          sent := [UpdateCommand "p1"
                 [("Title", VStr (xss VUndef)); ("Description", VStr (xss VUndef));
                  ("PropertyType", VStr (xss VUndef)); ("Price", minus_five);
                  ("PropertyLocation", VStr (xss VUndef))]
                 attribute_exists_PropertyID];
          outage := None |})).
  { unfold V1.update.
    rewrite prop_sanitized_Price, !prop_sanitized_text by solve_member.
    change (prop negative_price "Price") with minus_five.
    change (truthy minus_five) with true. cbn [negb].
    rewrite andb_false_r. cbn [andb].
    reflexivity. }
  rewrite Hgo. cbn [fst snd table]. split; [reflexivity|].
  eexists. split; [apply lookup_insert_eq|].
  assert (Hp : ∀ row : object, assign row
                 [("Title", VStr (xss VUndef)); ("Description", VStr (xss VUndef));
                  ("PropertyType", VStr (xss VUndef)); ("Price", minus_five);
                  ("PropertyLocation", VStr (xss VUndef))] !! "Price"
               = Some minus_five).
  { intros row. rewrite assign_mutable. by repeat case_decide. }
  split; [apply Hp|]. split; [reflexivity|].
  unfold prop at 1. rewrite Hp. split; [reflexivity|].
  apply validateProperty_negative_price. unfold prop. by rewrite Hp.
Qed.

(** *** The scenarios of the specification, run in sequence *)

Example scenario_create :
  V1.create escaping listing_p1 empty_world
  = ({| status := 201; json := Message "Property created successfully" |},
     {| table := {[ "p1" := listing_p1 ]};
        sent := [PutCommand listing_p1 attribute_not_exists_PropertyID];
        outage := None |}).
Proof. reflexivity. Qed.

Example scenario_repeat_create :
  status (V1.create escaping listing_p1 after_create).1 = 500
  ∧ (table (V1.create escaping listing_p1 after_create).2 !! "p1") ≫= (.!! "Title")
    = Some (VStr "A").
Proof. split; reflexivity. Qed.

Example scenario_update :
  status (V1.update escaping "p1" title_and_price after_create).1 = 200
  ∧ (table after_update !! "p1") ≫= (.!! "Title") = Some (VStr "B").
Proof. split; reflexivity. Qed.

Example scenario_delete :
  status (V1.remove "p1" after_update).1 = 200
  ∧ status (V1.read "p1" after_delete).1 = 404.
Proof. split; reflexivity. Qed.

(** ** Further properties of the handlers *)

(** *** Each handler, case by case *)

Lemma send_cases cmd w :
  send cmd w
  = match outage w with
    | Some message => (Rejected message, after_send cmd (table w) w)
    | None => ((execute cmd (table w)).1, after_send cmd (execute cmd (table w)).2 w)
    end.
Proof. unfold send, after_send. destruct (outage w); [done|]. by destruct (execute _ _). Qed.

Lemma create_cases xss body w :
  V1.create xss body w
  = if truthy (validateProperty body)
    then ({| status := 400; json := Error (validateProperty body) |}, w)
    else
      match outage w, table w !! xss (prop body "PropertyID") with
      | Some message, _ =>
          ({| status := 500; json := ErrorDetails "Error creating property" message |},
           after_send (PutCommand (V1.sanitizeInput xss body) attribute_not_exists_PropertyID)
             (table w) w)
      | None, Some _ =>
          ({| status := 500;
              json := ErrorDetails "Error creating property" conditional_failed |},
           after_send (PutCommand (V1.sanitizeInput xss body) attribute_not_exists_PropertyID)
             (table w) w)
      | None, None =>
          ({| status := 201; json := Message "Property created successfully" |},
           after_send (PutCommand (V1.sanitizeInput xss body) attribute_not_exists_PropertyID)
             (<[xss (prop body "PropertyID") := V1.sanitizeInput xss body]> (table w)) w)
      end.
Proof.
  unfold V1.create. destruct (truthy (validateProperty body)); [done|].
  rewrite send_cases. destruct (outage w); [done|].
  cbn [execute]. rewrite key_of_sanitized.
  by destruct (table w !! xss (prop body "PropertyID")).
Qed.

(** A body that passes validation has a non-empty string for a key. *)
Lemma valid_body_key body :
  validateProperty body = VNull →
  ∃ id, body !! "PropertyID" = Some (VStr id) ∧ id ≠ "" ∧ key_of body = Some id.
Proof.
  intros Hv.
  assert (Hid : nonempty_string (prop body "PropertyID") = true).
  { revert Hv. unfold validateProperty. rewrite text_check.
    destruct (nonempty_string (prop body "PropertyID")); [done|discriminate]. }
  unfold prop, key_of in *.
  destruct (body !! "PropertyID") as [[| |b|n|s|l|l]|]; try discriminate.
  exists s. split; [done|]. split; [|done].
  intros ->. discriminate.
Qed.

Lemma create_raw_cases body w id :
  validateProperty body = VNull →
  body !! "PropertyID" = Some (VStr id) →
  V2.create body w
  = match outage w, table w !! id with
    | Some message, _ =>
        ({| status := 500; json := ErrorDetails "Error creating property" message |},
         after_send (PutCommand body attribute_not_exists_PropertyID) (table w) w)
    | None, Some _ =>
        ({| status := 500;
            json := ErrorDetails "Error creating property" conditional_failed |},
         after_send (PutCommand body attribute_not_exists_PropertyID) (table w) w)
    | None, None =>
        ({| status := 201; json := Message "Property created successfully" |},
         after_send (PutCommand body attribute_not_exists_PropertyID)
           (<[id := body]> (table w)) w)
    end.
Proof.
  intros Hv Hid. unfold V2.create. rewrite Hv. cbn [truthy].
  rewrite send_cases. destruct (outage w); [done|].
  cbn [execute]. unfold key_of. rewrite Hid.
  by destruct (table w !! id).
Qed.

Lemma read_cases id w :
  V1.read id w
  = match outage w, table w !! id with
    | Some message, _ =>
        ({| status := 500; json := ErrorDetails "Error fetching property" message |},
         after_send (GetCommand id) (table w) w)
    | None, None =>
        ({| status := 404; json := Error (VStr "Property not found") |},
         after_send (GetCommand id) (table w) w)
    | None, Some item =>
        ({| status := 201; json := Listing item |},
         after_send (GetCommand id) (table w) w)
    end.
Proof.
  unfold V1.read. rewrite send_cases. destruct (outage w); [done|].
  cbn [execute fst snd Item]. by destruct (table w !! id).
Qed.

Lemma remove_cases id w :
  V1.remove id w
  = match outage w, table w !! id with
    | Some message, _ =>
        ({| status := 500; json := ErrorDetails "Error deleting property" message |},
         after_send (DeleteCommand id attribute_exists_PropertyID) (table w) w)
    | None, None =>
        ({| status := 500;
            json := ErrorDetails "Error deleting property" conditional_failed |},
         after_send (DeleteCommand id attribute_exists_PropertyID) (table w) w)
    | None, Some _ =>
        ({| status := 200; json := Message "Property deleted successfully" |},
         after_send (DeleteCommand id attribute_exists_PropertyID)
           (delete id (table w)) w)
    end.
Proof.
  unfold V1.remove. rewrite send_cases. destruct (outage w); [done|].
  cbn [execute]. by destruct (table w !! id).
Qed.

Lemma list_all_cases w :
  V1.list_all w
  = match outage w with
    | Some message =>
        ({| status := 500; json := ErrorDetails "Error fetching properties" message |},
         after_send (ScanCommand 10) (table w) w)
    | None =>
        ({| status := 200; json := Listings (take 10 (map_to_list (table w)).*2) |},
         after_send (ScanCommand 10) (table w) w)
    end.
Proof. unfold V1.list_all. rewrite send_cases. by destruct (outage w). Qed.

Lemma update_cases xss id body w :
  V1.update xss id body w
  = if nothing_supplied (VStr (xss (prop body "Title")))
         (VStr (xss (prop body "Description"))) (VStr (xss (prop body "PropertyType")))
         (prop body "Price") (VStr (xss (prop body "PropertyLocation")))
    then ({| status := 400; json := Error (VStr "No fields to update") |}, w)
    else
      match outage w, table w !! id with
      | Some message, _ =>
          ({| status := 500; json := ErrorDetails "Error updating property" message |},
           after_send (UpdateCommand id (update_set xss body) attribute_exists_PropertyID)
             (table w) w)
      | None, None =>
          ({| status := 500;
              json := ErrorDetails "Error updating property" conditional_failed |},
           after_send (UpdateCommand id (update_set xss body) attribute_exists_PropertyID)
             (table w) w)
      | None, Some row =>
          ({| status := 200; json := Message "Property updated successfully" |},
           after_send (UpdateCommand id (update_set xss body) attribute_exists_PropertyID)
             (<[id := assign row (update_set xss body)]> (table w)) w)
      end.
Proof.
  unfold V1.update, nothing_supplied.
  rewrite prop_sanitized_Price, !prop_sanitized_text by solve_member.
  match goal with
  | |- context [if ?c then _ else _] => destruct c; [done|]
  end.
  rewrite send_cases. destruct (outage w); [done|].
  cbn [execute]. by destruct (table w !! id).
Qed.

Lemma update_raw_cases id body w :
  V2.update id body w
  = if nothing_supplied (prop body "Title") (prop body "Description")
         (prop body "PropertyType") (prop body "Price") (prop body "PropertyLocation")
    then ({| status := 400; json := Error (VStr "No fields to update") |}, w)
    else
      match outage w, table w !! id with
      | Some message, _ =>
          ({| status := 500; json := ErrorDetails "Error updating property" message |},
           after_send (UpdateCommand id (update_set_raw body) attribute_exists_PropertyID)
             (table w) w)
      | None, None =>
          ({| status := 500;
              json := ErrorDetails "Error updating property" conditional_failed |},
           after_send (UpdateCommand id (update_set_raw body) attribute_exists_PropertyID)
             (table w) w)
      | None, Some row =>
          ({| status := 200; json := Message "Property updated successfully" |},
           after_send (UpdateCommand id (update_set_raw body) attribute_exists_PropertyID)
             (<[id := assign row (update_set_raw body)]> (table w)) w)
      end.
Proof.
  unfold V2.update, nothing_supplied.
  match goal with
  | |- context [if ?c then _ else _] => destruct c; [done|]
  end.
  rewrite send_cases. destruct (outage w); [done|].
  cbn [execute]. by destruct (table w !! id).
Qed.

(** *** Validation *)

(** X1: The helper accepts a body exactly when all six fields meet the data
    model; other properties of the body play no part. *)
Theorem validateProperty_accepts_iff data :
  isNaN (prop data "Price") = false →
  validateProperty data = VNull
  ↔ ∀ k, k ∈ check_order → satisfies k (prop data k) = true.
Proof.
  intros Hnan. pose proof (validateProperty_first_offending data Hnan) as Hv.
  destruct (first_offending data) as [k0|] eqn:Hfirst; unfold first_offending in Hfirst.
  - destruct Hv as (message & Hmsg & _). rewrite Hmsg. split; [discriminate|].
    intros Hall. apply List.find_some in Hfirst as [Hin Hbad].
    apply list_elem_of_In in Hin. by rewrite (Hall _ Hin) in Hbad.
  - split; [|done]. intros _ k Hk. apply list_elem_of_In in Hk.
    pose proof (List.find_none _ _ Hfirst k Hk) as Hok. simpl in Hok.
    by destruct (satisfies k (prop data k)).
Qed.

Lemma validateProperty_accepts_iff_witness :
  validateProperty listing_p1 = VNull
  ↔ ∀ k, k ∈ check_order → satisfies k (prop listing_p1 k) = true.
Proof. apply (validateProperty_accepts_iff listing_p1). reflexivity. Defined.

(** *** Create *)

(** X2: A create that is answered 201 had a body that passes validation,
    a serving backend and no row under the sanitized id, and it added the
    sanitized item under that id and nothing else; a create that is answered
    anything else leaves the table as it was. *)
Theorem create_accepted_only_if xss body w :
  (status (V1.create xss body w).1 = 201 →
   validateProperty body = VNull ∧ outage w = None
   ∧ table w !! xss (prop body "PropertyID") = None
   ∧ table (V1.create xss body w).2
     = <[xss (prop body "PropertyID") := V1.sanitizeInput xss body]> (table w))
  ∧ (status (V1.create xss body w).1 ≠ 201 →
     table (V1.create xss body w).2 = table w).
Proof.
  rewrite create_cases.
  destruct (validateProperty_result body) as [Hv|Hv]; rewrite Hv.
  - cbn [truthy].
    destruct (outage w) as [m|], (table w !! xss (prop body "PropertyID")) as [r|];
      cbn [fst snd status table after_send]; split; try discriminate; try done.
  - cbn [fst snd status table]. split; [discriminate | done].
Qed.

Lemma create_accepted_only_if_witness :
  validateProperty listing_p1 = VNull ∧ outage empty_world = None
  ∧ table empty_world !! escaping (prop listing_p1 "PropertyID") = None
  ∧ table (V1.create escaping listing_p1 empty_world).2
    = <[escaping (prop listing_p1 "PropertyID") := V1.sanitizeInput escaping listing_p1]>
        (table empty_world).
Proof.
  destruct (create_accepted_only_if escaping listing_p1 empty_world) as (Honly & _).
  apply Honly. reflexivity.
Defined.

(** X3: A create that was answered 201 can be read back: the next read of the
    sanitized id is answered with the sanitized item. *)
Theorem create_then_read xss body w :
  status (V1.create xss body w).1 = 201 →
  (V1.read (xss (prop body "PropertyID")) (V1.create xss body w).2).1
  = {| status := 201; json := Listing (V1.sanitizeInput xss body) |}.
Proof.
  rewrite (create_cases xss body w).
  destruct (truthy (validateProperty body)); [discriminate|].
  destruct (outage w) as [m|] eqn:Ho,
    (table w !! xss (prop body "PropertyID")) as [r|]; try discriminate.
  intros _. cbn [snd]. rewrite read_cases. cbn [outage table after_send].
  by rewrite Ho, lookup_insert_eq.
Qed.

Lemma create_then_read_witness :
  (V1.read (escaping (prop listing_p1 "PropertyID"))
     (V1.create escaping listing_p1 empty_world).2).1
  = {| status := 201; json := Listing (V1.sanitizeInput escaping listing_p1) |}.
Proof. apply (create_then_read escaping listing_p1 empty_world). reflexivity. Defined.

Lemma validateProperty_fields data data' :
  (∀ k, k ∈ check_order → data !! k = data' !! k) →
  validateProperty data = validateProperty data'.
Proof.
  intros Hsame. unfold validateProperty, prop.
  by rewrite !Hsame by (unfold check_order; solve_member).
Qed.

Lemma sanitizeInput_listing_fields xss data data' :
  (∀ k, k ∈ check_order → data !! k = data' !! k) →
  V1.sanitizeInput xss data = V1.sanitizeInput xss data'.
Proof.
  intros Hsame. unfold V1.sanitizeInput, prop.
  by rewrite !Hsame by (unfold check_order; solve_member).
Qed.

(** X4: The sanitizing handlers see nothing of a body but the six listing
    fields: two bodies that agree on those get the same answer from create
    and from update and leave the same world behind, the same command sent
    and the same table, so a property outside the six never reaches the
    store. *)
Theorem extra_properties_ignored xss id body body' w :
  (∀ k, k ∈ check_order → body !! k = body' !! k) →
  V1.create xss body w = V1.create xss body' w
  ∧ V1.update xss id body w = V1.update xss id body' w.
Proof.
  intros Hsame. unfold V1.create, V1.update.
  by rewrite (validateProperty_fields _ _ Hsame), (sanitizeInput_listing_fields _ _ _ Hsame).
Qed.

Lemma extra_properties_ignored_witness :
  with_owner !! "Owner" = Some (VStr "o")
  ∧ V1.create escaping with_owner empty_world = V1.create escaping listing_p1 empty_world
  ∧ V1.update escaping "p1" with_owner world_p1 = V1.update escaping "p1" listing_p1 world_p1.
Proof.
  assert (Hsame : ∀ k, k ∈ check_order → with_owner !! k = listing_p1 !! k).
  { intros k Hk. unfold check_order in Hk. cases_member Hk; reflexivity. }
  split; [reflexivity|]. split.
  - exact (proj1 (extra_properties_ignored escaping "p1" with_owner listing_p1
                    empty_world Hsame)).
  - exact (proj2 (extra_properties_ignored escaping "p1" with_owner listing_p1
                    world_p1 Hsame)).
Defined.

(** X5: In the revision that stores the body as received, a create that
    is answered 201 found the id free and stored under it the request body
    itself, every property of it, those outside the data model included. *)
Theorem create_raw_stores_body body w :
  status (V2.create body w).1 = 201 →
  ∃ id, body !! "PropertyID" = Some (VStr id) ∧ id ≠ ""
        ∧ table w !! id = None
        ∧ table (V2.create body w).2 = <[id := body]> (table w)
        ∧ ∀ k, (table (V2.create body w).2 !! id) ≫= (.!! k) = body !! k.
Proof.
  intros H201.
  destruct (validateProperty_result body) as [Hv|Hv].
  - destruct (valid_body_key _ Hv) as (id & Hbody & Hne & _).
    exists id. revert H201. rewrite (create_raw_cases _ _ _ Hv Hbody).
    destruct (outage w) as [m|], (table w !! id) as [r|];
      cbn [fst snd status table after_send]; try discriminate.
    intros _. split; [done|]. split; [done|]. split; [done|]. split; [done|].
    intros k. by rewrite lookup_insert_eq.
  - revert H201. unfold V2.create. by rewrite Hv.
Qed.

Lemma create_raw_stores_body_witness :
  ∃ id, with_owner !! "PropertyID" = Some (VStr id) ∧ id ≠ ""
        ∧ table empty_world !! id = None
        ∧ table (V2.create with_owner empty_world).2 = <[id := with_owner]> (table empty_world)
        ∧ ∀ k, (table (V2.create with_owner empty_world).2 !! id) ≫= (.!! k)
               = with_owner !! k.
Proof. apply (create_raw_stores_body with_owner empty_world). reflexivity. Defined.

Example create_raw_keeps_owner :
  (table (V2.create with_owner empty_world).2 !! "p1") ≫= (.!! "Owner") = Some (VStr "o")
  ∧ (table (V1.create escaping with_owner empty_world).2 !! "p1") ≫= (.!! "Owner") = None.
Proof. split; reflexivity. Qed.

(** *** Read *)

(** X6: Reading is repeatable: a second read of the same id gets the same
    answer as the first, and neither changes the table. *)
Theorem read_repeatable id w :
  (V1.read id (V1.read id w).2).1 = (V1.read id w).1
  ∧ table (V1.read id (V1.read id w).2).2 = table w.
Proof.
  assert (Hw : (V1.read id w).2 = after_send (GetCommand id) (table w) w).
  { rewrite read_cases. by destruct (outage w), (table w !! id). }
  rewrite Hw, (read_cases id (after_send _ _ _)), (read_cases id w).
  cbn [outage table after_send].
  by destruct (outage w), (table w !! id).
Qed.

(** *** Delete *)

(** X7: A delete is answered 200 exactly when the backend serves and a row sits
    under the id; the table then loses that row, and otherwise is left as it
    was. *)
Theorem remove_accepted_iff id w :
  (status (V1.remove id w).1 = 200 ↔ outage w = None ∧ is_Some (table w !! id))
  ∧ table (V1.remove id w).2
    = (if bool_decide (status (V1.remove id w).1 = 200)
       then delete id (table w) else table w).
Proof.
  rewrite remove_cases.
  destruct (outage w) as [m|], (table w !! id) as [r|] eqn:Hid;
    cbn [fst snd status table after_send]; (split; [split|]); try done;
    try (by intros [? ?]); try (by intros [_ [? ?]]).
Qed.

(** X8: After a delete that was answered 200, a read of the id is answered 404
    and a second delete is refused with the failed existence guard. *)
Theorem remove_then_gone id w :
  status (V1.remove id w).1 = 200 →
  (V1.read id (V1.remove id w).2).1
  = {| status := 404; json := Error (VStr "Property not found") |}
  ∧ (V1.remove id (V1.remove id w).2).1
    = {| status := 500;
         json := ErrorDetails "Error deleting property" conditional_failed |}.
Proof.
  intros H200.
  assert (Hw : outage (V1.remove id w).2 = None ∧ table (V1.remove id w).2 !! id = None).
  { revert H200. rewrite remove_cases.
    destruct (outage w) as [m|] eqn:Ho, (table w !! id) as [r|];
      cbn [fst snd status table outage after_send]; try discriminate.
    intros _. split; [done | apply lookup_delete_eq]. }
  destruct Hw as [Ho Hid].
  rewrite read_cases, (remove_cases id (V1.remove id w).2), Ho, Hid. done.
Qed.

Lemma remove_then_gone_witness :
  (V1.read "p1" (V1.remove "p1" world_p1).2).1
  = {| status := 404; json := Error (VStr "Property not found") |}
  ∧ (V1.remove "p1" (V1.remove "p1" world_p1).2).1
    = {| status := 500;
         json := ErrorDetails "Error deleting property" conditional_failed |}.
Proof. apply (remove_then_gone "p1" world_p1). reflexivity. Defined.

(** *** Update *)

Lemma assign_update_set_key row S k :
  k ∉ mutable_fields →
  (∃ t d ty p l, S = assignments t d ty p l) →
  assign row S !! k = row !! k.
Proof.
  intros Hk (t & d & ty & p & l & ->). unfold assignments.
  rewrite assign_mutable. unfold mutable_fields in Hk.
  rewrite !not_elem_of_cons in Hk. destruct Hk as (? & ? & ? & ? & ? & _).
  by repeat case_decide.
Qed.

Lemma assign_again row t d ty p l :
  assign (assign row (assignments t d ty p l)) (assignments t d ty p l)
  = assign row (assignments t d ty p l).
Proof.
  apply map_eq. intros k. unfold assignments. rewrite !assign_mutable.
  by repeat case_decide.
Qed.

Lemma something_supplied t d ty p l :
  nothing_supplied t d ty p l = false →
  truthy t = true ∨ truthy d = true ∨ truthy ty = true
  ∨ truthy p = true ∨ truthy l = true.
Proof.
  unfold nothing_supplied.
  destruct (truthy t), (truthy d), (truthy ty), (truthy p), (truthy l);
    cbn [negb andb]; intuition congruence.
Qed.

(** X9: An update that is answered 200 carried at least one of Title,
    Description, PropertyType, Price, PropertyLocation that is truthy once
    sanitized (Price as received), met a serving backend and found a row
    under the id. *)
Theorem update_accepted_only_if xss id body w :
  status (V1.update xss id body w).1 = 200 →
  (∃ k, k ∈ mutable_fields ∧ truthy (supplied xss body k) = true)
  ∧ outage w = None ∧ is_Some (table w !! id).
Proof.
  rewrite update_cases.
  destruct (nothing_supplied _ _ _ _ _) eqn:Hnone; [discriminate|].
  destruct (outage w) as [m|], (table w !! id) as [r|]; try discriminate.
  intros _. split; [|by split; [|eexists]].
  unfold mutable_fields.
  destruct (something_supplied _ _ _ _ _ Hnone) as [H|[H|[H|[H|H]]]].
  - exists "Title". split; [solve_member | exact H].
  - exists "Description". split; [solve_member | exact H].
  - exists "PropertyType". split; [solve_member | exact H].
  - exists "Price". split; [solve_member | exact H].
  - exists "PropertyLocation". split; [solve_member | exact H].
Qed.

Lemma update_accepted_only_if_witness :
  (∃ k, k ∈ mutable_fields ∧ truthy (supplied escaping title_and_price k) = true)
  ∧ outage world_p1 = None ∧ is_Some (table world_p1 !! "p1").
Proof. apply (update_accepted_only_if escaping "p1" title_and_price world_p1). reflexivity. Defined.

(** X10: Applying the same update a second time changes nothing more: the table
    after two identical updates is the table after one. *)
Theorem update_idempotent xss id body w :
  table (V1.update xss id body (V1.update xss id body w).2).2
  = table (V1.update xss id body w).2.
Proof.
  rewrite (update_cases xss id body w).
  destruct (nothing_supplied _ _ _ _ _) eqn:Hnone.
  - cbn [snd]. rewrite update_cases, Hnone. done.
  - destruct (outage w) as [m|] eqn:Ho, (table w !! id) as [r|] eqn:Hid;
      cbn [snd]; rewrite update_cases, Hnone; cbn [outage table after_send];
      rewrite Ho; try rewrite Hid; try done.
    rewrite lookup_insert_eq. cbn [snd table after_send].
    unfold update_set. by rewrite assign_again, insert_insert_eq.
Qed.

(** X11: In the revision that reads the body directly, an update that is
    answered 200 carried at least one truthy value among the five mutable
    fields of the body, met a serving backend and found a row under the
    id. *)
Theorem update_raw_accepted_only_if id body w :
  status (V2.update id body w).1 = 200 →
  (∃ k, k ∈ mutable_fields ∧ truthy (prop body k) = true)
  ∧ outage w = None ∧ is_Some (table w !! id).
Proof.
  rewrite update_raw_cases.
  destruct (nothing_supplied _ _ _ _ _) eqn:Hnone; [discriminate|].
  destruct (outage w) as [m|], (table w !! id) as [r|]; try discriminate.
  intros _. split; [|by split; [|eexists]].
  unfold mutable_fields.
  destruct (something_supplied _ _ _ _ _ Hnone) as [H|[H|[H|[H|H]]]].
  - exists "Title". split; [solve_member | exact H].
  - exists "Description". split; [solve_member | exact H].
  - exists "PropertyType". split; [solve_member | exact H].
  - exists "Price". split; [solve_member | exact H].
  - exists "PropertyLocation". split; [solve_member | exact H].
Qed.

Lemma update_raw_accepted_only_if_witness :
  (∃ k, k ∈ mutable_fields ∧ truthy (prop full_update k) = true)
  ∧ outage world_p1 = None ∧ is_Some (table world_p1 !! "p1").
Proof. apply (update_raw_accepted_only_if "p1" full_update world_p1). reflexivity. Defined.

(** X12: In that revision an update that is answered 200 found the row and
    wrote into it each mutable field the body has, with the very value the
    body has for it, not sanitized and not checked against the data model,
    and kept every other attribute of the row. *)
Theorem update_raw_writes_supplied id body w :
  status (V2.update id body w).1 = 200 →
  ∃ row row',
    table w !! id = Some row
    ∧ table (V2.update id body w).2 = <[id := row']> (table w)
    ∧ (∀ k v, k ∈ mutable_fields → body !! k = Some v → row' !! k = Some v)
    ∧ (∀ k, k ∉ mutable_fields → row' !! k = row !! k).
Proof.
  rewrite update_raw_cases.
  destruct (nothing_supplied _ _ _ _ _); [discriminate|].
  destruct (outage w) as [m|], (table w !! id) as [row|]; try discriminate.
  intros _. exists row, (assign row (update_set_raw body)).
  cbn [snd table after_send].
  split; [done|]. split; [done|]. split.
  - intros k v Hk Hv. unfold update_set_raw, assignments. rewrite assign_mutable.
    unfold prop. unfold mutable_fields in Hk.
    cases_member Hk; rewrite Hv; by repeat case_decide.
  - intros k Hk. apply assign_update_set_key; [done|].
    unfold update_set_raw. by eexists _, _, _, _, _.
Qed.

Lemma update_raw_writes_supplied_witness :
  ∃ row row',
    table world_p1 !! "p1" = Some row
    ∧ table (V2.update "p1" full_update world_p1).2 = <["p1" := row']> (table world_p1)
    ∧ (∀ k v, k ∈ mutable_fields → full_update !! k = Some v → row' !! k = Some v)
    ∧ (∀ k, k ∉ mutable_fields → row' !! k = row !! k).
Proof. apply (update_raw_writes_supplied "p1" full_update world_p1). reflexivity. Defined.

Example update_raw_full :
  table (V2.update "p1" full_update world_p1).2 !! "p1"
  = Some (<["PropertyID" := VStr "p1"]> full_update).
Proof. reflexivity. Qed.

(** *** What every request leaves alone *)

(** X13: A request only ever touches the row under its own key: an update or a
    delete of [id], and a create whose sanitized id is [id], leave every
    other row of the table as it was, whatever the outcome. *)
Theorem other_rows_untouched xss id body w k :
  k ≠ id →
  table (V1.update xss id body w).2 !! k = table w !! k
  ∧ table (V1.remove id w).2 !! k = table w !! k
  ∧ (xss (prop body "PropertyID") = id →
     table (V1.create xss body w).2 !! k = table w !! k).
Proof.
  intros Hne. rewrite update_cases, remove_cases, create_cases.
  split; [|split].
  - destruct (nothing_supplied _ _ _ _ _); [done|].
    destruct (outage w), (table w !! id); cbn [snd table after_send]; try done.
    by rewrite lookup_insert_ne.
  - destruct (outage w), (table w !! id); cbn [snd table after_send]; try done.
    by rewrite lookup_delete_ne.
  - intros ->. destruct (truthy _); [done|].
    destruct (outage w), (table w !! id); cbn [snd table after_send]; try done.
    by rewrite lookup_insert_ne.
Qed.

Lemma other_rows_untouched_witness :
  status (V1.update escaping "p1" title_and_price world_two).1 = 200
  ∧ status (V1.remove "p1" world_two).1 = 200
  ∧ status (V1.create escaping script_listing world_two).1 = 201
  ∧ table (V1.update escaping "p1" title_and_price world_two).2 !! "a"
    = table world_two !! "a"
  ∧ table (V1.remove "p1" world_two).2 !! "a" = table world_two !! "a"
  ∧ table (V1.create escaping script_listing world_two).2 !! "a"
    = table world_two !! "a".
Proof.
  split; [reflexivity|]. split; [reflexivity|]. split; [reflexivity|].
  destruct (other_rows_untouched escaping "p1" title_and_price world_two "a")
    as (Hu & Hd & _); [discriminate|].
  destruct (other_rows_untouched escaping "p2" script_listing world_two "a")
    as (_ & _ & Hc); [discriminate|].
  split; [exact Hu|]. split; [exact Hd|]. apply Hc. reflexivity.
Defined.

(** X14: The rows stay under the key their own PropertyID spells: if that holds
    of the table before a request, it holds after it, for every handler of
    both revisions. *)
Theorem keyed_preserved xss id body w :
  keyed (table w) →
  keyed (table (V1.create xss body w).2)
  ∧ keyed (table (V1.update xss id body w).2)
  ∧ keyed (table (V1.remove id w).2)
  ∧ keyed (table (V1.read id w).2)
  ∧ keyed (table (V1.list_all w).2)
  ∧ keyed (table (V2.create body w).2)
  ∧ keyed (table (V2.update id body w).2).
Proof.
  intros Hkeyed. unfold keyed in *.
  assert (Hupd : ∀ S, (∃ t d ty p l, S = assignments t d ty p l) →
            ∀ row, table w !! id = Some row →
            map_Forall (λ k (r : object), r !! "PropertyID" = Some (VStr k))
              (<[id := assign row S]> (table w))).
  { intros S HS row Hrow. apply map_Forall_insert_2; [|done].
    rewrite (assign_update_set_key _ _ "PropertyID"); [|..|done].
    - exact (Hkeyed _ _ Hrow).
    - unfold mutable_fields. rewrite !not_elem_of_cons.
      repeat split; try discriminate. apply not_elem_of_nil. }
  repeat split.
  - rewrite create_cases. destruct (truthy _); [done|].
    destruct (outage w), (table w !! xss (prop body "PropertyID"));
      cbn [snd table after_send]; try done.
    apply map_Forall_insert_2; [|done].
    unfold V1.sanitizeInput. by rewrite lookup_insert_eq.
  - rewrite update_cases. destruct (nothing_supplied _ _ _ _ _); [done|].
    destruct (outage w), (table w !! id) eqn:Hid; cbn [snd table after_send]; try done.
    apply Hupd; [|done]. unfold update_set. by eexists _, _, _, _, _.
  - rewrite remove_cases.
    destruct (outage w), (table w !! id); cbn [snd table after_send]; try done.
    by apply map_Forall_delete.
  - rewrite read_cases. by destruct (outage w), (table w !! id).
  - rewrite list_all_cases. by destruct (outage w).
  - destruct (validateProperty_result body) as [Hv|Hv].
    + destruct (valid_body_key _ Hv) as (k & Hk & _ & _).
      rewrite (create_raw_cases _ _ _ Hv Hk).
      destruct (outage w), (table w !! k); cbn [snd table after_send]; try done.
      by apply map_Forall_insert_2.
    + unfold V2.create. by rewrite Hv.
  - rewrite update_raw_cases. destruct (nothing_supplied _ _ _ _ _); [done|].
    destruct (outage w), (table w !! id) eqn:Hid; cbn [snd table after_send]; try done.
    apply Hupd; [|done]. unfold update_set_raw. by eexists _, _, _, _, _.
Qed.

Lemma keyed_preserved_witness :
  keyed (table (V1.create escaping script_listing world_p1).2)
  ∧ keyed (table (V1.update escaping "p1" only_title world_p1).2).
Proof.
  destruct (keyed_preserved escaping "p1" script_listing world_p1) as (Hc & _).
  - apply map_Forall_singleton. reflexivity.
  - destruct (keyed_preserved escaping "p1" only_title world_p1) as (_ & Hu & _).
    + apply map_Forall_singleton. reflexivity.
    + by split.
Defined.

(** X15: An update never adds or removes a row: the set of ids in the table is
    the same before and after, whatever the outcome. *)
Theorem update_keeps_ids xss id body w :
  dom (table (V1.update xss id body w).2) = dom (table w)
  ∧ dom (table (V2.update id body w).2) = dom (table w).
Proof.
  rewrite update_cases, update_raw_cases. split.
  - destruct (nothing_supplied _ _ _ _ _); [done|].
    destruct (outage w), (table w !! id) eqn:Hid; cbn [snd table after_send]; try done.
    by apply dom_insert_lookup_L.
  - destruct (nothing_supplied _ _ _ _ _); [done|].
    destruct (outage w), (table w !! id) eqn:Hid; cbn [snd table after_send]; try done.
    by apply dom_insert_lookup_L.
Qed.

(** *** The traffic to the store *)

(** X16: One request, at most one command, never a retry.  A read, a delete and
    a list send exactly one; a create sends its conditional put only when
    the body passes validation and an update its conditional update only
    when some field is supplied; and no handler changes whether the backend
    is failing. *)
Theorem one_command_per_request xss id body w :
  sent (V1.read id w).2 = (sent w ++ [GetCommand id])%list
  ∧ sent (V1.remove id w).2 = (sent w ++ [DeleteCommand id attribute_exists_PropertyID])%list
  ∧ sent (V1.list_all w).2 = (sent w ++ [ScanCommand 10])%list
  ∧ sent (V1.create xss body w).2
    = (if truthy (validateProperty body) then sent w
       else (sent w ++ [PutCommand (V1.sanitizeInput xss body)
                          attribute_not_exists_PropertyID])%list)
  ∧ sent (V1.update xss id body w).2
    = (if nothing_supplied (VStr (xss (prop body "Title")))
            (VStr (xss (prop body "Description")))
            (VStr (xss (prop body "PropertyType"))) (prop body "Price")
            (VStr (xss (prop body "PropertyLocation")))
       then sent w
       else (sent w ++ [UpdateCommand id (update_set xss body)
                          attribute_exists_PropertyID])%list)
  ∧ outage (V1.read id w).2 = outage w
  ∧ outage (V1.remove id w).2 = outage w
  ∧ outage (V1.list_all w).2 = outage w
  ∧ outage (V1.create xss body w).2 = outage w
  ∧ outage (V1.update xss id body w).2 = outage w.
Proof.
  rewrite read_cases, remove_cases, list_all_cases, create_cases, update_cases.
  destruct (truthy _), (nothing_supplied _ _ _ _ _), (outage w) eqn:Ho,
    (table w !! id), (table w !! xss (prop body "PropertyID"));
    cbn [snd sent outage after_send]; rewrite ?Ho; by repeat split.
Qed.

(** X17: While the backend is failing, every request that reaches the store is
    answered 500 with the backend's message as details (a create or an
    update can still be answered 400 before it gets there), and the table
    is not changed by any of them. *)
Theorem outage_answers_500 xss id body w message :
  outage w = Some message →
  (V1.read id w).1
  = {| status := 500; json := ErrorDetails "Error fetching property" message |}
  ∧ (V1.remove id w).1
    = {| status := 500; json := ErrorDetails "Error deleting property" message |}
  ∧ (V1.list_all w).1
    = {| status := 500; json := ErrorDetails "Error fetching properties" message |}
  ∧ (validateProperty body = VNull →
     (V1.create xss body w).1
     = {| status := 500; json := ErrorDetails "Error creating property" message |})
  ∧ (status (V1.update xss id body w).1 ≠ 400 →
     (V1.update xss id body w).1
     = {| status := 500; json := ErrorDetails "Error updating property" message |})
  ∧ table (V1.read id w).2 = table w
  ∧ table (V1.remove id w).2 = table w
  ∧ table (V1.list_all w).2 = table w
  ∧ table (V1.create xss body w).2 = table w
  ∧ table (V1.update xss id body w).2 = table w.
Proof.
  intros Ho.
  rewrite read_cases, remove_cases, list_all_cases, create_cases, update_cases, Ho.
  cbn [fst snd table after_send].
  split; [done|]. split; [done|]. split; [done|]. split; [by intros ->|].
  split; [by destruct (nothing_supplied _ _ _ _ _)|].
  split; [done|]. split; [done|]. split; [done|].
  split; [by destruct (truthy _) | by destruct (nothing_supplied _ _ _ _ _)].
Qed.

Lemma outage_answers_500_witness :
  (V1.read "p1" {| table := table world_p1; sent := []; outage := Some "Throttled" |}).1
  = {| status := 500; json := ErrorDetails "Error fetching property" "Throttled" |}.
Proof.
  destruct (outage_answers_500 escaping "p1" listing_p1
              {| table := table world_p1; sent := []; outage := Some "Throttled" |}
              "Throttled") as (Hread & _); [reflexivity | exact Hread].
Defined.

(** *** List *)

(** X18: The list answer holds rows of the table and nothing else, and when the
    table has at most 10 rows and the backend serves, it holds all of
    them. *)
Theorem list_all_rows w :
  (∀ items item, json (V1.list_all w).1 = Listings items → item ∈ items →
                 ∃ k, table w !! k = Some item)
  ∧ (outage w = None → (size (table w) ≤ 10)%nat →
     ∃ items, json (V1.list_all w).1 = Listings items
              ∧ ∀ k row, table w !! k = Some row → row ∈ items).
Proof.
  rewrite list_all_cases. split.
  - destruct (outage w); cbn [fst json]; [discriminate|].
    intros items item [= <-] Hin. apply subseteq_take in Hin.
    apply list_elem_of_fmap in Hin as ([k row] & -> & Hin).
    exists k. by apply elem_of_map_to_list.
  - intros -> Hsize. eexists. split; [reflexivity|].
    intros k row Hrow. rewrite take_ge.
    + apply (list_elem_of_fmap_2' snd _ (k, row)); [|done].
      by apply elem_of_map_to_list.
    + by rewrite length_fmap, length_map_to_list.
Qed.

Lemma list_all_rows_witness :
  ∃ items, json (V1.list_all world_p1).1 = Listings items
           ∧ ∀ k row, table world_p1 !! k = Some row → row ∈ items.
Proof.
  destruct (list_all_rows world_p1) as (_ & Hall).
  apply Hall; [reflexivity | vm_compute; lia].
Defined.

(** *** Sequences of requests *)

(** X19: Repeating a create that was answered 201 is refused with the failed
    absence guard and leaves the stored item as the first create put it. *)
Theorem create_twice xss body w :
  status (V1.create xss body w).1 = 201 →
  (V1.create xss body (V1.create xss body w).2).1
  = {| status := 500;
       json := ErrorDetails "Error creating property" conditional_failed |}
  ∧ table (V1.create xss body (V1.create xss body w).2).2
    = table (V1.create xss body w).2.
Proof.
  rewrite (create_cases xss body w).
  destruct (truthy (validateProperty body)) eqn:Hv; [discriminate|].
  destruct (outage w) as [m|] eqn:Ho,
    (table w !! xss (prop body "PropertyID")) as [r|]; try discriminate.
  intros _. cbn [snd]. rewrite create_cases, Hv. cbn [outage table after_send].
  by rewrite Ho, lookup_insert_eq.
Qed.

Lemma create_twice_witness :
  (V1.create escaping listing_p1 after_create).1
  = {| status := 500;
       json := ErrorDetails "Error creating property" conditional_failed |}
  ∧ table (V1.create escaping listing_p1 after_create).2 = table after_create.
Proof. apply (create_twice escaping listing_p1 empty_world). reflexivity. Defined.

(** X20: Deleting what a create has just added gives the table back: after
    a create that was answered 201, a delete of the sanitized id is
    answered 200 and the table is the one from before the create. *)
Theorem create_then_remove xss body w :
  status (V1.create xss body w).1 = 201 →
  (V1.remove (xss (prop body "PropertyID")) (V1.create xss body w).2).1
  = {| status := 200; json := Message "Property deleted successfully" |}
  ∧ table (V1.remove (xss (prop body "PropertyID")) (V1.create xss body w).2).2
    = table w.
Proof.
  rewrite (create_cases xss body w).
  destruct (truthy (validateProperty body)); [discriminate|].
  destruct (outage w) as [m|] eqn:Ho,
    (table w !! xss (prop body "PropertyID")) as [r|] eqn:Hfree; try discriminate.
  intros _. cbn [snd]. rewrite remove_cases. cbn [outage table after_send].
  rewrite Ho, lookup_insert_eq. cbn [fst snd table after_send].
  split; [done|]. by apply delete_insert_id.
Qed.

Lemma create_then_remove_witness :
  (V1.remove (escaping (prop script_listing "PropertyID"))
     (V1.create escaping script_listing world_p1).2).1
  = {| status := 200; json := Message "Property deleted successfully" |}
  ∧ table (V1.remove (escaping (prop script_listing "PropertyID"))
             (V1.create escaping script_listing world_p1).2).2
    = table world_p1.
Proof. apply (create_then_remove escaping script_listing world_p1). reflexivity. Defined.

(** *** Start-up *)

Lemma tableName_absent props :
  (∀ v, ("tableName", v) ∉ props) →
  Startup.tableName (VObj props) = Some VUndef.
Proof.
  intros Hno. unfold Startup.tableName.
  destruct (List.find _ props) as [[k v]|] eqn:Hfind; [|done].
  apply List.find_some in Hfind as [Hin Hk]. cbn [fst] in Hk.
  apply String.eqb_eq in Hk as ->. apply list_elem_of_In in Hin.
  by destruct (Hno v).
Qed.

(** X21: [getDBSecret] ends the process with code 1, after one line on the error
    console and with the table name untouched, exactly when the call to the
    provider is rejected, the secret has no [SecretString], the text is not
    JSON, or it parses to null; in every other case the process goes on. *)
Theorem getDBSecret_exits_iff JSON_parse r p :
  Startup.exit_code p = None →
  (Startup.exit_code (Startup.getDBSecret JSON_parse r p) = Some 1
   ↔ match r with
     | Startup.Failure _ | Startup.SecretValue None => True
     | Startup.SecretValue (Some text) =>
         JSON_parse text = None ∨ JSON_parse text = Some VNull
         ∨ JSON_parse text = Some VUndef
     end)
  ∧ (Startup.exit_code (Startup.getDBSecret JSON_parse r p) = Some 1 →
     Startup.TABLE_NAME (Startup.getDBSecret JSON_parse r p) = Startup.TABLE_NAME p
     ∧ length (Startup.console_error (Startup.getDBSecret JSON_parse r p))
       = S (length (Startup.console_error p)))
  ∧ (Startup.exit_code (Startup.getDBSecret JSON_parse r p) ≠ Some 1 →
     Startup.exit_code (Startup.getDBSecret JSON_parse r p) = None).
Proof.
  intros Hrun. unfold Startup.getDBSecret.
  destruct r as [[text|]|message]; [destruct (JSON_parse text) as [secret|] eqn:Hp;
                                     [destruct secret as [| |b|n|s|l|l]|]|..];
    cbn [Startup.tableName Startup.fail Startup.exit_code Startup.TABLE_NAME
         Startup.console_error];
    rewrite ?Hrun, ?length_app; cbn [length];
    (split; [split|split]); intros; try done; try lia; try (intuition congruence);
    try (split; [done | lia]); auto.
Qed.

Lemma getDBSecret_exits_iff_witness :
  Startup.exit_code
    (Startup.getDBSecret sample_parse (Startup.SecretValue (Some "null")) Startup.initial)
  = Some 1
  ∧ Startup.exit_code
      (Startup.getDBSecret sample_parse (Startup.SecretValue (Some secret_text))
         Startup.initial)
    = None.
Proof.
  destruct (getDBSecret_exits_iff sample_parse (Startup.SecretValue (Some "null"))
              Startup.initial) as ([_ Hexit] & _); [reflexivity|].
  split; [apply Hexit; right; left; reflexivity | reflexivity].
Defined.

(** X22: The table name is taken from the secret without a check: a secret that
    parses but has no [tableName] (an object without that property, a
    number, a string, a boolean, an array) puts undefined in place of the
    default table name, and the process goes on. *)
Theorem getDBSecret_without_tableName JSON_parse text secret p :
  JSON_parse text = Some secret →
  secret ≠ VNull → secret ≠ VUndef →
  (∀ props v, secret = VObj props → ("tableName", v) ∉ props) →
  Startup.TABLE_NAME (Startup.getDBSecret JSON_parse (Startup.SecretValue (Some text)) p)
  = VUndef
  ∧ Startup.exit_code (Startup.getDBSecret JSON_parse (Startup.SecretValue (Some text)) p)
    = Startup.exit_code p.
Proof.
  intros Hparse Hnull Hundef Hno. unfold Startup.getDBSecret. rewrite Hparse.
  destruct secret as [| |b|n|s|l|props]; try done.
  rewrite tableName_absent; [done|]. intros v. by apply (Hno props v).
Qed.

Lemma getDBSecret_without_tableName_witness :
  Startup.TABLE_NAME
    (Startup.getDBSecret sample_parse (Startup.SecretValue (Some "{}")) Startup.initial)
  = VUndef
  ∧ Startup.exit_code
      (Startup.getDBSecret sample_parse (Startup.SecretValue (Some "{}")) Startup.initial)
    = Startup.exit_code Startup.initial.
Proof.
  apply (getDBSecret_without_tableName sample_parse "{}" (VObj []) Startup.initial);
    [reflexivity | discriminate | discriminate |].
  intros props v [= <-]. apply not_elem_of_nil.
Defined.

Example getDBSecret_sample :
  Startup.TABLE_NAME
    (Startup.getDBSecret sample_parse (Startup.SecretValue (Some secret_text))
       Startup.initial)
  = VStr "Listings".
Proof. reflexivity. Qed.

(** *** Create on a table that holds rows *)

(** X23: Whatever the create request and whatever its outcome, in either
    revision, every row that was in the table is still there, unchanged:
    create never overwrites or removes a row. *)
Theorem create_never_overwrites xss body w k row :
  table w !! k = Some row →
  table (V1.create xss body w).2 !! k = Some row
  ∧ table (V2.create body w).2 !! k = Some row.
Proof.
  intros Hk. split.
  - rewrite create_cases. destruct (truthy _); [done|].
    destruct (outage w), (table w !! xss (prop body "PropertyID")) eqn:Hid;
      cbn [snd table after_send]; try done.
    rewrite lookup_insert_ne; [done|]. intros Heq. rewrite Heq in Hid. congruence.
  - destruct (validateProperty_result body) as [Hv|Hv].
    + destruct (valid_body_key _ Hv) as (id & Hbody & _ & _).
      rewrite (create_raw_cases _ _ _ Hv Hbody).
      destruct (outage w), (table w !! id) eqn:Hid; cbn [snd table after_send]; try done.
      rewrite lookup_insert_ne; [done|]. intros Heq. rewrite Heq in Hid. congruence.
    + unfold V2.create. by rewrite Hv.
Qed.

Lemma create_never_overwrites_witness :
  table (V1.create escaping script_listing world_p1).2 !! "p1" = Some listing_p1
  ∧ table (V2.create script_listing world_p1).2 !! "p1" = Some listing_p1.
Proof.
  apply (create_never_overwrites escaping script_listing world_p1 "p1"). reflexivity.
Defined.

(** X24: In the revision that stores the body as received, a valid create whose
    PropertyID names a stored row is answered with the 500 "Error creating
    property" response (the failed absence guard, or the backend's message
    when it is failing) and the table is left as it was. *)
Theorem create_raw_duplicate_rejected body w id row :
  validateProperty body = VNull →
  body !! "PropertyID" = Some (VStr id) →
  table w !! id = Some row →
  (V2.create body w).1
  = {| status := 500;
       json := ErrorDetails "Error creating property"
                 (default conditional_failed (outage w)) |}
  ∧ table (V2.create body w).2 = table w.
Proof.
  intros Hv Hbody Hrow. rewrite (create_raw_cases _ _ _ Hv Hbody), Hrow.
  by destruct (outage w).
Qed.

Lemma create_raw_duplicate_rejected_witness :
  (V2.create listing_p1 world_p1).1
  = {| status := 500;
       json := ErrorDetails "Error creating property" conditional_failed |}
  ∧ table (V2.create listing_p1 world_p1).2 = table world_p1.
Proof.
  apply (create_raw_duplicate_rejected listing_p1 world_p1 "p1" listing_p1); reflexivity.
Defined.
